(** * Verification of the django-auditlog test fixtures (auditlog_tests/models.py)

    The fixture module declares Django models and registers them with two
    registries of the audit engine.  The models, their fields, the two
    [get_additional_data] hooks and the module-level registration block are
    embedded from the source.  The engine itself (registry, field diff,
    log entry creation, history cascade) lives outside the fixture module;
    it is embedded from the spec's description of it, and each such
    definition says so in its doc comment. *)

From Stdlib Require Import List String Ascii Bool ZArith Lia.
Import ListNotations.
Open Scope string_scope.

(** ** Python values and exceptions *)

(** The values a model field can hold, as far as the fixtures use them:
    [None], integers, strings, booleans, UUIDs (kept as their text). *)
Inductive value : Type :=
| VNone
| VInt (z : Z)
| VStr (s : string)
| VBool (b : bool)
| VUuid (s : string).

Definition value_eqb (v w : value) : bool :=
  match v, w with
  | VNone, VNone => true
  | VInt a, VInt b => Z.eqb a b
  | VStr a, VStr b => String.eqb a b
  | VBool a, VBool b => Bool.eqb a b
  | VUuid a, VUuid b => String.eqb a b
  | _, _ => false
  end.

(** A Python dict with string keys, in insertion order. *)
Definition dict := list (string * value).

(** Python computations that may raise: the exception is named by its class. *)
Inductive result (A : Type) : Type :=
| Ok (a : A)
| Raise (exc : string).
Arguments Ok {A} a.
Arguments Raise {A} exc.

Definition bind {A B} (c : result A) (k : A -> result B) : result B :=
  match c with
  | Ok a => k a
  | Raise e => Raise e
  end.

Notation "'let*' x ':=' c 'in' k" := (bind c (fun x => k))
  (at level 200, x name, c at level 100, k at level 200).

(** ** The models declared in models.py *)

Inductive model : Type :=
| SimpleModel
| AltPrimaryKeyModel
| UUIDPrimaryKeyModel
| ProxyModel
| RelatedModelParent
| RelatedModel
| ManyRelatedModel
| ManyRelatedModel_recursive_through   (** [ManyRelatedModel.recursive.through] *)
| ManyRelatedModel_related_through     (** [ManyRelatedModel.related.through] *)
| ManyRelatedOtherModel
| SimpleIncludeModel
| SimpleExcludeModel
| SimpleMappingModel
| SimpleMaskedModel
| AdditionalDataIncludedModel
| DateTimeFieldModel
| ChoicesFieldModel
| CharfieldTextfieldModel
| PostgresArrayFieldModel
| NoDeleteHistoryModel
| JSONModel
| OneToOneFieldModel.

Scheme Equality for model.

(** A concrete field: its name and its [verbose_name]. *)
Record field : Type := mkField { f_name : string; f_verbose_name : string }.

(** Django's default [verbose_name]: [name.replace('_', ' ')]. *)
Fixpoint underscores_to_spaces (s : string) : string :=
  match s with
  | EmptyString => EmptyString
  | String c r =>
      String (if Ascii.eqb c "_"%char then " "%char else c) (underscores_to_spaces r)
  end.

Definition fld (name : string) : field := mkField name (underscores_to_spaces name).

(** The primary key kinds of the fixtures. *)
Inductive pk_kind : Type := AutoIntPk | CharPk | UuidPk.

Definition pk_of (m : model) : pk_kind :=
  match m with
  | AltPrimaryKeyModel => CharPk      (* key = CharField(primary_key=True) *)
  | UUIDPrimaryKeyModel => UuidPk     (* id = UUIDField(primary_key=True) *)
  | _ => AutoIntPk
  end.

(** The implicit primary key [id = AutoField(verbose_name="ID")]. *)
Definition auto_id : field := mkField "id" "ID".

(** The concrete fields of each model ([_meta.fields]): the implicit [id],
    the declared fields, the parent's fields for a proxy and for multi-table
    inheritance.  Many-to-many fields and the history field are not concrete. *)
Definition concrete_fields (m : model) : list field :=
  let common := [fld "text"; fld "boolean"; fld "integer"; fld "datetime"] in
  match m with
  | SimpleModel => auto_id :: common
  | AltPrimaryKeyModel => fld "key" :: common
  | UUIDPrimaryKeyModel => fld "id" :: common
  | ProxyModel => auto_id :: common
  | RelatedModelParent => [auto_id]
  | RelatedModel =>
      [auto_id; fld "relatedmodelparent_ptr"; fld "related"; fld "one_to_one"]
  | ManyRelatedModel => [auto_id]
  | ManyRelatedModel_recursive_through =>
      [auto_id; fld "from_manyrelatedmodel"; fld "to_manyrelatedmodel"]
  | ManyRelatedModel_related_through =>
      [auto_id; fld "manyrelatedmodel"; fld "manyrelatedothermodel"]
  | ManyRelatedOtherModel => [auto_id]
  | SimpleIncludeModel => [auto_id; fld "label"; fld "text"]
  | SimpleExcludeModel => [auto_id; fld "label"; fld "text"]
  | SimpleMappingModel =>
      [auto_id; fld "sku"; mkField "vtxt" "Version"; fld "not_mapped"]
  | SimpleMaskedModel => [auto_id; fld "address"; fld "text"]
  | AdditionalDataIncludedModel => [auto_id; fld "label"; fld "text"; fld "related"]
  | DateTimeFieldModel =>
      [auto_id; fld "label"; fld "timestamp"; fld "date"; fld "time"; fld "naive_dt"]
  | ChoicesFieldModel => [auto_id; fld "status"; fld "multiplechoice"]
  | CharfieldTextfieldModel => [auto_id; fld "longchar"; fld "longtextfield"]
  | PostgresArrayFieldModel => [auto_id; fld "arrayfield"]
  | NoDeleteHistoryModel => [auto_id; fld "integer"]
  | JSONModel => [auto_id; fld "json"]
  | OneToOneFieldModel => [auto_id; fld "related"]
  end.

(** The many-to-many fields each model declares. *)
Definition m2m_field_names (m : model) : list string :=
  match m with
  | ManyRelatedModel => ["recursive"; "related"]
  | _ => []
  end.

(** [AuditlogHistoryField(pk_indexable=..., delete_related=...)]. *)
Record history_field : Type :=
  mkHistoryField { hf_pk_indexable : bool; hf_delete_related : bool }.

(** Modelled from the spec: the defaults of [AuditlogHistoryField] (the
    engine's models module is not in the fixtures).  The spec lists
    "deletion-cascade suppression for history records" as a configuration
    variant, so history is deleted with its object unless suppressed. *)
Definition AuditlogHistoryField : history_field := mkHistoryField true true.

(** The history field of each model; a proxy inherits its parent's. *)
Definition history_of_model (m : model) : option history_field :=
  match m with
  | RelatedModelParent | ManyRelatedModel_recursive_through
  | ManyRelatedModel_related_through => None
  | AltPrimaryKeyModel | UUIDPrimaryKeyModel =>
      Some (mkHistoryField false (hf_delete_related AuditlogHistoryField))
  | NoDeleteHistoryModel | JSONModel =>
      Some (mkHistoryField (hf_pk_indexable AuditlogHistoryField) false)
  | _ => Some AuditlogHistoryField
  end.

(** ** Instances and the database *)

(** A model instance: the values of its concrete fields by attribute name
    (a foreign key is stored under the field's name as the target's key). *)
Definition instance := dict.

(** Reading an attribute; a field that was never set reads as [None]. *)
Fixpoint getattr (o : instance) (name : string) : value :=
  match o with
  | [] => VNone
  | (k, v) :: r => if String.eqb k name then v else getattr r name
  end.

Definition pk_name (m : model) : string :=
  match m with
  | AltPrimaryKeyModel => "key"
  | RelatedModel => "relatedmodelparent_ptr"
  | _ => "id"
  end.

Definition pk_value (m : model) (o : instance) : value := getattr o (pk_name m).

(** The model whose table holds a model's rows: a proxy has no table of its
    own and shares its parent's. *)
Definition concrete_model (m : model) : model :=
  match m with
  | ProxyModel => SimpleModel
  | _ => m
  end.

Definition same_table (m m' : model) : bool :=
  model_beq (concrete_model m) (concrete_model m').

(** Two rows are the same row when they are in the same table with the same
    primary key. *)
Definition same_obj (a b : model * instance) : bool :=
  same_table (fst a) (fst b) && value_eqb (pk_value (fst a) (snd a)) (pk_value (fst b) (snd b)).

(** The database: the rows of every table, each with the class it was saved
    through.  The rows of an automatic many-to-many table are rows of its
    through model. *)
Record db : Type := mkDb { db_rows : list (model * instance) }.

(** [Model.objects.all()]: the rows of the model's table. *)
Definition objects (d : db) (m : model) : list instance :=
  map snd (filter (fun r => same_table (fst r) m) (db_rows d)).

(** The target keys of the rows of a through table whose source column holds
    a key. *)
Definition m2m_targets (d : db) (through : model) (source target : string) (src : value)
  : list value :=
  map (fun o => getattr o target)
    (filter (fun o => value_eqb (getattr o source) src) (objects d through)).

(** Order of an auto-increment key. *)
Definition pk_order (v : value) : Z :=
  match v with
  | VInt z => z
  | _ => 0
  end.

(** [QuerySet.first()]: on an unordered queryset, the object of least key. *)
Fixpoint qs_first (m : model) (qs : list instance) : option instance :=
  match qs with
  | [] => None
  | o :: r =>
      match qs_first m r with
      | None => Some o
      | Some o' =>
          if Z.leb (pk_order (pk_value m o)) (pk_order (pk_value m o'))
          then Some o else Some o'
      end
  end.

(** Python truthiness of a model instance or [None]. *)
Definition py_truthy (o : option instance) : bool :=
  match o with
  | Some _ => true
  | None => false
  end.

(** Attribute access [o.name] on an instance or [None]. *)
Definition py_attr (o : option instance) (name : string) : result value :=
  match o with
  | Some i => Ok (getattr i name)
  | None => Raise "AttributeError"
  end.

(** A many-to-many manager: the through model, the column of the manager's
    own object and the column of the objects it yields, and whether changes
    are mirrored (a symmetrical relation to self). *)
Record m2m_manager : Type := mkManager {
  mg_through : model;
  mg_source : string;
  mg_target : string;
  mg_symmetrical : bool
}.

(** [recursive = models.ManyToManyField("self")]: symmetrical by default,
    through [ManyRelatedModel_recursive] with the columns
    [from_manyrelatedmodel] and [to_manyrelatedmodel]. *)
Definition m2m_recursive : m2m_manager :=
  mkManager ManyRelatedModel_recursive_through "from_manyrelatedmodel" "to_manyrelatedmodel" true.

(** [related = models.ManyToManyField("ManyRelatedOtherModel",
    related_name="related")], from the [ManyRelatedModel] side. *)
Definition m2m_related : m2m_manager :=
  mkManager ManyRelatedModel_related_through "manyrelatedmodel" "manyrelatedothermodel" false.

(** The reverse manager [ManyRelatedOtherModel.related] of the same relation. *)
Definition m2m_related_reverse : m2m_manager :=
  mkManager ManyRelatedModel_related_through "manyrelatedothermodel" "manyrelatedmodel" false.

(** The keys of the objects a manager yields for its object. *)
Definition m2m_links (d : db) (mg : m2m_manager) (src : value) : list value :=
  m2m_targets d (mg_through mg) (mg_source mg) (mg_target mg) src.

(** The [ManyRelatedOtherModel] objects linked to a saved [ManyRelatedModel]
    through the [related] relation. *)
Definition ManyRelatedModel_related (d : db) (self : instance) : list instance :=
  let targets := m2m_links d m2m_related (pk_value ManyRelatedModel self) in
  filter (fun o => existsb (value_eqb (pk_value ManyRelatedOtherModel o)) targets)
    (objects d ManyRelatedOtherModel).

(** [self.related] of [ManyRelatedModel]: Django's many-related manager
    raises [ValueError] on an instance whose primary key is [None] (unsaved);
    on a saved instance it yields the linked objects. *)
Definition ManyRelatedModel_related_manager (d : db) (self : instance)
  : result (list instance) :=
  match pk_value ManyRelatedModel self with
  | VNone => Raise "ValueError"
  | _ => Ok (ManyRelatedModel_related d self)
  end.

(** models.py lines 96-98:
    [related = self.related.first()]
    [return {"related_model_id": related.id if related else None}] *)
Definition ManyRelatedModel_get_additional_data (d : db) (self : instance) : result dict :=
  let* related_qs := ManyRelatedModel_related_manager d self in
  let related := qs_first ManyRelatedOtherModel related_qs in
  let* v := if py_truthy related then py_attr related "id" else Ok VNone in
  Ok [("related_model_id", v)].

(** The class names of the models, as Django names them. *)
Definition model_name (m : model) : string :=
  match m with
  | SimpleModel => "SimpleModel"
  | AltPrimaryKeyModel => "AltPrimaryKeyModel"
  | UUIDPrimaryKeyModel => "UUIDPrimaryKeyModel"
  | ProxyModel => "ProxyModel"
  | RelatedModelParent => "RelatedModelParent"
  | RelatedModel => "RelatedModel"
  | ManyRelatedModel => "ManyRelatedModel"
  | ManyRelatedModel_recursive_through => "ManyRelatedModel_recursive"
  | ManyRelatedModel_related_through => "ManyRelatedModel_related"
  | ManyRelatedOtherModel => "ManyRelatedOtherModel"
  | SimpleIncludeModel => "SimpleIncludeModel"
  | SimpleExcludeModel => "SimpleExcludeModel"
  | SimpleMappingModel => "SimpleMappingModel"
  | SimpleMaskedModel => "SimpleMaskedModel"
  | AdditionalDataIncludedModel => "AdditionalDataIncludedModel"
  | DateTimeFieldModel => "DateTimeFieldModel"
  | ChoicesFieldModel => "ChoicesFieldModel"
  | CharfieldTextfieldModel => "CharfieldTextfieldModel"
  | PostgresArrayFieldModel => "PostgresArrayFieldModel"
  | NoDeleteHistoryModel => "NoDeleteHistoryModel"
  | JSONModel => "JSONModel"
  | OneToOneFieldModel => "OneToOneFieldModel"
  end.

(** A forward access [self.fk] of a non-null foreign key: with a [None] key
    the descriptor raises [RelatedObjectDoesNotExist]; otherwise it fetches
    the target row by key, and [QuerySet.get] raises the target's
    [DoesNotExist] when no row has it. *)
Definition fk_get (d : db) (target : model) (key : value) : result instance :=
  match key with
  | VNone => Raise "RelatedObjectDoesNotExist"
  | _ =>
      match find (fun o => value_eqb (pk_value target o) key) (objects d target) with
      | Some o => Ok o
      | None => Raise (model_name target ++ ".DoesNotExist")
      end
  end.

(** models.py lines 168-178: [self.related] is the [SimpleModel] row. *)
Definition AdditionalDataIncludedModel_get_additional_data (d : db) (self : instance)
  : result dict :=
  let* related := fk_get d SimpleModel (getattr self "related") in
  let object_details :=
    [("related_model_id", getattr related "id");
     ("related_model_text", getattr related "text")] in
  Ok object_details.

(** [getattr(model, "get_additional_data", None)]. *)
Definition get_additional_data (m : model) : option (db -> instance -> result dict) :=
  match m with
  | ManyRelatedModel => Some ManyRelatedModel_get_additional_data
  | AdditionalDataIncludedModel => Some AdditionalDataIncludedModel_get_additional_data
  | _ => None
  end.

(** ** Registries *)

(** Modelled from the spec: the registration options of the engine's
    registry ("include certain fields only, exclude certain fields, remap
    field names to display labels, mask certain field values, restrict
    tracking to specific many-to-many relations"). *)
Record config : Type := mkConfig {
  include_fields : list string;
  exclude_fields : list string;
  mapping_fields : list (string * string);
  mask_fields : list string;
  m2m_fields : list string
}.

Definition default_config : config := mkConfig [] [] [] [] [].

(** Modelled from the spec: an [AuditlogModelRegistry] with its
    [create]/[update]/[delete] switches and its registered models. *)
Record registry : Type := mkRegistry {
  r_create : bool;
  r_update : bool;
  r_delete : bool;
  r_registry : list (model * config)
}.

Definition AuditlogModelRegistry (create update delete : bool) : registry :=
  mkRegistry create update delete [].

(** Modelled from the spec: [register(model, ...)] records the model with its
    configuration, replacing an earlier registration of the same model. *)
Definition register (r : registry) (m : model) (cfg : config) : registry :=
  mkRegistry (r_create r) (r_update r) (r_delete r)
    ((m, cfg) :: filter (fun p => negb (model_beq (fst p) m)) (r_registry r)).

(** The configuration a model is registered with, if any. *)
Definition get_config (r : registry) (m : model) : option config :=
  match find (fun p => model_beq (fst p) m) (r_registry r) with
  | Some (_, cfg) => Some cfg
  | None => None
  end.

(** The module-level effects of models.py, in execution order: the
    decorators run when their class is defined (lines 12, 109, 144), then
    the registration block (lines 277-292).  Returns [(auditlog,
    m2m_only_auditlog)]. *)
Definition module_registries : registry * registry :=
  let auditlog := AuditlogModelRegistry true true true in
  let m2m_only_auditlog := AuditlogModelRegistry false false false in
  let auditlog := register auditlog SimpleModel default_config in
  let auditlog := register auditlog SimpleIncludeModel (mkConfig ["label"] [] [] [] []) in
  let auditlog := register auditlog SimpleMaskedModel (mkConfig [] [] [] ["address"] []) in
  let auditlog := register auditlog AltPrimaryKeyModel default_config in
  let auditlog := register auditlog UUIDPrimaryKeyModel default_config in
  let auditlog := register auditlog ProxyModel default_config in
  let auditlog := register auditlog RelatedModel default_config in
  let auditlog := register auditlog ManyRelatedModel default_config in
  let auditlog := register auditlog ManyRelatedModel_recursive_through default_config in
  let m2m_only_auditlog :=
    register m2m_only_auditlog ManyRelatedModel (mkConfig [] [] [] [] ["related"]) in
  let auditlog := register auditlog SimpleExcludeModel (mkConfig [] ["text"] [] [] []) in
  let auditlog :=
    register auditlog SimpleMappingModel (mkConfig [] [] [("sku", "Product No.")] [] []) in
  let auditlog := register auditlog AdditionalDataIncludedModel default_config in
  let auditlog := register auditlog DateTimeFieldModel default_config in
  let auditlog := register auditlog ChoicesFieldModel default_config in
  let auditlog := register auditlog CharfieldTextfieldModel default_config in
  let auditlog := register auditlog PostgresArrayFieldModel default_config in
  let auditlog := register auditlog NoDeleteHistoryModel default_config in
  let auditlog := register auditlog JSONModel default_config in
  (auditlog, m2m_only_auditlog).

Definition auditlog : registry := fst module_registries.
Definition m2m_only_auditlog : registry := snd module_registries.

(** ** The audit engine *)

Definition mem (x : string) (l : list string) : bool := existsb (String.eqb x) l.

Fixpoint lookup_label (mp : list (string * string)) (name : string) : option string :=
  match mp with
  | [] => None
  | (k, l) :: r => if String.eqb k name then Some l else lookup_label r name
  end.

(** A field change as captured in a history record, with the field's name, its display label and both values. *)
Record change : Type := mkChange {
  c_field : string;
  c_label : string;
  c_old : value;
  c_new : value
}.

Inductive m2m_op : Type := M2MAdd | M2MRemove | M2MClear.

Inductive action : Type :=
| ACreate
| AUpdate
| ADelete
| AM2M (fname : string) (op : m2m_op) (objs : list value).

(** A history record ([LogEntry]): the object it is about, the action, the
    captured changes and the additional data. *)
Record log_entry : Type := mkLogEntry {
  le_model : model;
  le_pk : value;
  le_action : action;
  le_changes : list change;
  le_additional_data : option dict
}.

(** The model of the objects a many-to-many field relates its model to. *)
Definition m2m_related_model (owner : model) (f : string) : model :=
  if model_beq owner ManyRelatedModel && String.eqb f "related" then ManyRelatedOtherModel
  else owner.

(** The operations the fixtures' instances go through, and the signals the
    engine receives for them.  [EvM2M owner f reverse inst op objs] is a
    change of the many-to-many field [f] declared on [owner], made through a
    manager of [inst]: the forward manager ([inst] is an [owner] object) or,
    when [reverse], the reverse manager of the related model ([inst] is an
    object of the related model); [objs] are the keys of the objects on the
    other side. *)
Inductive event : Type :=
| EvCreate (m : model) (inst : instance)
| EvUpdate (m : model) (old new : instance)
| EvDelete (m : model) (inst : instance)
| EvM2M (owner : model) (fname : string) (reverse : bool) (inst : instance)
    (op : m2m_op) (objs : list value).

(** The model of the operation's instance. *)
Definition event_model (ev : event) : model :=
  match ev with
  | EvCreate m _ | EvUpdate m _ _ | EvDelete m _ => m
  | EvM2M owner f rev _ _ _ => if rev then m2m_related_model owner f else owner
  end.

(** The model whose registration decides the logging: the operation's model,
    and for a many-to-many change the model declaring the field, since the
    receiver is connected to the field's through model when that model is
    registered. *)
Definition event_registered_model (ev : event) : model :=
  match ev with
  | EvM2M owner _ _ _ _ _ => owner
  | _ => event_model ev
  end.

(** The instance a signal carries: the saved one on update. *)
Definition event_instance (ev : event) : instance :=
  match ev with
  | EvCreate _ i | EvUpdate _ _ i | EvDelete _ i | EvM2M _ _ _ i _ _ => i
  end.

Section Engine.

(** Modelled from the spec: the redaction marker masking writes in place of
    a captured value; any function of the value. *)
Variable redact : value -> value.

(** Modelled from the spec: the fields tracked under a configuration, the
    inclusion list (when given) keeping only its fields and the exclusion
    list dropping its fields. *)
Definition tracked_fields (cfg : config) (m : model) : list field :=
  let fields := concrete_fields m in
  let fields :=
    match include_fields cfg with
    | [] => fields
    | inc => filter (fun f => mem (f_name f) inc) fields
    end in
  filter (fun f => negb (mem (f_name f) (exclude_fields cfg))) fields.

(** Modelled from the spec: the displayed label of a field, remapped by
    [mapping_fields], its [verbose_name] otherwise. *)
Definition field_label (cfg : config) (f : field) : string :=
  match lookup_label (mapping_fields cfg) (f_name f) with
  | Some l => l
  | None => f_verbose_name f
  end.

Definition field_value (o : option instance) (name : string) : value :=
  match o with
  | Some i => getattr i name
  | None => VNone
  end.

(** Modelled from the spec: the change of one field between two states
    ([None] before a creation and after a deletion); an unchanged field
    yields nothing, a masked field has its values redacted. *)
Definition field_change (cfg : config) (old new : option instance) (f : field)
  : list change :=
  let ov := field_value old (f_name f) in
  let nv := field_value new (f_name f) in
  if value_eqb ov nv then []
  else if mem (f_name f) (mask_fields cfg)
  then [mkChange (f_name f) (field_label cfg f) (redact ov) (redact nv)]
  else [mkChange (f_name f) (field_label cfg f) ov nv].

(** Modelled from the spec: the diff of the tracked fields. *)
Definition model_instance_diff (cfg : config) (m : model) (old new : option instance)
  : list change :=
  flat_map (field_change cfg old new) (tracked_fields cfg m).

(** Modelled from the spec: creating a history record, with the mapping of
    the model's [get_additional_data] hook attached when the hook exists. *)
Definition log_create (d : db) (m : model) (inst : instance) (act : action)
  (changes : list change) : result log_entry :=
  match get_additional_data m with
  | Some hook =>
      let* extra := hook d inst in
      Ok (mkLogEntry m (pk_value m inst) act changes (Some extra))
  | None => Ok (mkLogEntry m (pk_value m inst) act changes None)
  end.

(** Modelled from the spec: what one registry logs for an operation: nothing
    for an unregistered model; creations, updates with a non-empty diff and
    deletions when the registry's switch is on; many-to-many changes of the
    relations listed in [m2m_fields] of the model declaring them, recorded
    against the instance whose manager made the change. *)
Definition log_event (r : registry) (d : db) (ev : event) : result (option log_entry) :=
  match get_config r (event_registered_model ev) with
  | None => Ok None
  | Some cfg =>
      match ev with
      | EvCreate m i =>
          if r_create r then
            let* e := log_create d m i ACreate (model_instance_diff cfg m None (Some i)) in
            Ok (Some e)
          else Ok None
      | EvUpdate m o n =>
          if r_update r then
            match model_instance_diff cfg m (Some o) (Some n) with
            | [] => Ok None
            | changes => let* e := log_create d m n AUpdate changes in Ok (Some e)
            end
          else Ok None
      | EvDelete m i =>
          if r_delete r then
            let* e := log_create d m i ADelete (model_instance_diff cfg m (Some i) None) in
            Ok (Some e)
          else Ok None
      | EvM2M _ f _ i op objs =>
          if mem f (m2m_fields cfg) then
            let* e := log_create d (event_model ev) i (AM2M f op objs) [] in Ok (Some e)
          else Ok None
      end
  end.

(** The handlers of several registries run in turn; an exception stops the
    later ones, the records already written stay. *)
Fixpoint log_all (rs : list registry) (d : db) (ev : event)
  : list log_entry * option string :=
  match rs with
  | [] => ([], None)
  | r :: rs' =>
      match log_event r d ev with
      | Raise x => ([], Some x)
      | Ok o =>
          let (es, x) := log_all rs' d ev in
          (match o with Some e => e :: es | None => es end, x)
      end
  end.

End Engine.

(** ** The database effect of each operation and the history store *)

(** [on_delete] of a foreign key. *)
Inductive on_delete : Type := CASCADE | SET_NULL.

(** The foreign keys each model declares, with a one-to-one field and the
    parent link of multi-table inheritance among them: attribute, target
    model, [null], [on_delete].  The two through models are the ones Django
    creates for [recursive] and [related], with [on_delete=CASCADE]. *)
Definition foreign_keys (m : model) : list (string * model * bool * on_delete) :=
  match m with
  | RelatedModel =>
      [("relatedmodelparent_ptr", RelatedModelParent, false, CASCADE);
       ("related", SimpleModel, false, CASCADE);
       ("one_to_one", SimpleModel, false, CASCADE)]
  | ManyRelatedModel_recursive_through =>
      [("from_manyrelatedmodel", ManyRelatedModel, false, CASCADE);
       ("to_manyrelatedmodel", ManyRelatedModel, false, CASCADE)]
  | ManyRelatedModel_related_through =>
      [("manyrelatedmodel", ManyRelatedModel, false, CASCADE);
       ("manyrelatedothermodel", ManyRelatedOtherModel, false, CASCADE)]
  | AdditionalDataIncludedModel => [("related", SimpleModel, false, CASCADE)]
  | OneToOneFieldModel => [("related", OneToOneFieldModel, true, SET_NULL)]
  | _ => []
  end.

(** The unique constraints besides the primary key: the column of a
    one-to-one field, and the pair of columns of a through table. *)
Definition unique_together (m : model) : list (list string) :=
  match m with
  | RelatedModel => [["one_to_one"]]
  | ManyRelatedModel_recursive_through => [["from_manyrelatedmodel"; "to_manyrelatedmodel"]]
  | ManyRelatedModel_related_through => [["manyrelatedmodel"; "manyrelatedothermodel"]]
  | OneToOneFieldModel => [["related"]]
  | _ => []
  end.

(** The models Django creates itself ([_meta.auto_created]): the through
    models.  [Model.save_base] and [Collector.delete] send no [post_save]
    and no [post_delete] for them, so the handlers that registering one
    connects (models.py line 282) are reached by no save and no delete. *)
Definition auto_created (m : model) : bool :=
  match m with
  | ManyRelatedModel_recursive_through | ManyRelatedModel_related_through => true
  | _ => false
  end.

Definition all_models : list model :=
  [SimpleModel; AltPrimaryKeyModel; UUIDPrimaryKeyModel; ProxyModel; RelatedModelParent;
   RelatedModel; ManyRelatedModel; ManyRelatedModel_recursive_through;
   ManyRelatedModel_related_through; ManyRelatedOtherModel; SimpleIncludeModel;
   SimpleExcludeModel; SimpleMappingModel; SimpleMaskedModel; AdditionalDataIncludedModel;
   DateTimeFieldModel; ChoicesFieldModel; CharfieldTextfieldModel; PostgresArrayFieldModel;
   NoDeleteHistoryModel; JSONModel; OneToOneFieldModel].

(** Whether another row [o] of the table holds the values [i] holds in the
    columns [attrs] ([NULL] never conflicts). *)
Definition unique_conflict (m : model) (i o : instance) (attrs : list string) : bool :=
  negb (value_eqb (pk_value m o) (pk_value m i))
  && forallb (fun a => negb (value_eqb (getattr i a) VNone)
                       && value_eqb (getattr o a) (getattr i a)) attrs.

(** The constraints on a row of [m]: each foreign key is [NULL] where the
    field allows it or names a row of its target's table, and no other row
    takes the values of a unique constraint. *)
Definition row_ok (d : db) (m : model) (i : instance) : bool :=
  forallb (fun fk => match fk with
                     | (a, t, null, _) =>
                         match getattr i a with
                         | VNone => null
                         | v => existsb (fun o => value_eqb (pk_value t o) v) (objects d t)
                         end
                     end) (foreign_keys m)
  && forallb (fun attrs => negb (existsb (fun o => unique_conflict m i o attrs) (objects d m)))
       (unique_together m).

(** Every row of a table meets its constraints. *)
Definition table_ok (d : db) (m : model) : bool := forallb (row_ok d m) (objects d m).

(** Writing a row: it replaces the row of the same table with the same key. *)
Definition upsert (d : db) (m : model) (i : instance) : db :=
  mkDb ((m, i) :: filter (fun r => negb (same_obj r (m, i))) (db_rows d)).

(** The parent row multi-table inheritance keeps for a [RelatedModel]
    ([RelatedModelParent] has only its [id]). *)
Definition parent_rows (m : model) (i : instance) : list (model * instance) :=
  match m with
  | RelatedModel => [(RelatedModelParent, [("id", pk_value RelatedModel i)])]
  | _ => []
  end.

(** [Model.save_base]: the parent row, then the row itself, as the instance
    carries it.  A violated constraint raises [IntegrityError] and nothing
    is written (the parent and the child are written in one transaction). *)
Definition db_save (d : db) (m : model) (i : instance) : result db :=
  let d' := upsert (fold_left (fun d p => upsert d (fst p) (snd p)) (parent_rows m i) d) m i in
  if row_ok d' m i then Ok d' else Raise "IntegrityError".

(** A creation is an insert ([objects.create], [force_insert=True]): a row
    with the same key raises [IntegrityError]. *)
Definition db_insert (d : db) (m : model) (i : instance) : result db :=
  if existsb (fun o => value_eqb (pk_value m o) (pk_value m i)) (objects d m)
  then Raise "IntegrityError"
  else db_save d m i.

(** The rows pointing at an object with [on_delete=CASCADE]. *)
Definition cascade_dependents (d : db) (m : model) (i : instance) : list (model * instance) :=
  flat_map
    (fun dm =>
       flat_map
         (fun fk => match fk with
                    | (a, t, _, CASCADE) =>
                        if same_table t m
                        then map (fun o => (dm, o))
                               (filter (fun o => value_eqb (getattr o a) (pk_value m i))
                                  (objects d dm))
                        else []
                    | _ => []
                    end) (foreign_keys dm)) all_models.

(** [Collector.collect]: the rows depending on an object (each with its own
    dependents, at most [n] levels deep), the object, and its parent row
    (collected without its own dependents). *)
Fixpoint collect_n (n : nat) (d : db) (m : model) (i : instance) : list (model * instance) :=
  match n with
  | O => (m, i) :: parent_rows m i
  | S n' =>
      (flat_map (fun o => collect_n n' d (fst o) (snd o)) (cascade_dependents d m i)
       ++ (m, i) :: parent_rows m i)%list
  end.

(** Each row once, at its first place. *)
Definition dedup_rows (l : list (model * instance)) : list (model * instance) :=
  fold_left (fun acc o => if existsb (same_obj o) acc then acc else (acc ++ [o])%list) l [].

(** The rows a deletion removes, the dependents before the rows they point
    at.  A chain of [CASCADE] keys of the fixtures meets each model at most
    once, so [length all_models] levels reach every dependent. *)
Definition collect (d : db) (m : model) (i : instance) : list (model * instance) :=
  dedup_rows (collect_n (List.length all_models) d m i).

Definition set_attr (o : instance) (a : string) (v : value) : instance :=
  map (fun kv => if String.eqb (fst kv) a then (a, v) else kv) o.

(** Removing one row; the rows pointing at it with [on_delete=SET_NULL] get
    [NULL] in that column (an update query, which sends no signal). *)
Definition db_delete (d : db) (m : model) (i : instance) : db :=
  mkDb (map (fun r =>
               (fst r,
                fold_left (fun o fk => match fk with
                                       | (a, t, _, SET_NULL) =>
                                           if same_table t m
                                              && value_eqb (getattr o a) (pk_value m i)
                                           then set_attr o a VNone else o
                                       | _ => o
                                       end) (foreign_keys (fst r)) (snd r)))
            (filter (fun r => negb (same_obj r (m, i))) (db_rows d))).

(** The manager [f] of an object of [owner], or with [reverse] of an object
    of the related model.  A symmetrical relation to self has no reverse
    accessor. *)
Definition m2m_manager_of (owner : model) (f : string) (reverse : bool)
  : option m2m_manager :=
  match owner with
  | ManyRelatedModel =>
      if String.eqb f "recursive" then (if reverse then None else Some m2m_recursive)
      else if String.eqb f "related" then
        Some (if reverse then m2m_related_reverse else m2m_related)
      else None
  | _ => None
  end.

(** Each key once, at its first place (a Python [set] of keys). *)
Definition dedup_values (l : list value) : list value :=
  fold_left (fun acc v => if existsb (value_eqb v) acc then acc else (acc ++ [v])%list) l [].

(** A fresh key for a new row: one more than the greatest of the table. *)
Definition next_id (d : db) (m : model) : Z :=
  (1 + fold_left Z.max (map (fun o => pk_order (pk_value m o)) (objects d m)) 0)%Z.

(** [bulk_create] of the through rows linking [src] to each of [tgts]. *)
Fixpoint insert_links (d : db) (th : model) (source target : string) (src : value)
  (tgts : list value) : db :=
  match tgts with
  | [] => d
  | t :: r =>
      insert_links
        (mkDb ((th, [("id", VInt (next_id d th)); (source, src); (target, t)]) :: db_rows d))
        th source target src r
  end.

(** [_get_missing_target_ids]: the given keys not yet linked from [src]. *)
Definition missing_targets (d : db) (th : model) (source target : string) (src : value)
  (tgts : list value) : list value :=
  filter (fun t => negb (existsb (value_eqb t) (m2m_targets d th source target src)))
    (dedup_values tgts).

(** [add], [remove] and [clear] of a manager of the object
    with key [src]: the new database and the [pk_set] of the [m2m_changed]
    signals ([None] for [clear], written [[]]), or [None] when [add] or
    [remove] get no object and return before any signal.
    - [add] inserts the missing links and, on a symmetrical relation, the
      missing mirror links; [pk_set] is the missing keys.
    - [remove] and [clear] delete the links from [src] to the given (for
      [clear]: the linked) objects and, on a symmetrical relation, the links
      from those objects to [src] ([_build_remove_filters]); [pk_set] of
      [remove] is the given keys.
    Through rows are deleted without [post_delete]: they are auto-created. *)
Definition db_m2m_change (d : db) (mg : m2m_manager) (src : value) (op : m2m_op)
  (objs : list value) : option (db * list value) :=
  let th := mg_through mg in
  let sa := mg_source mg in
  let ta := mg_target mg in
  let unlink (others : list value) :=
    mkDb (filter (fun r =>
                    negb (same_table (fst r) th
                          && ((value_eqb (getattr (snd r) sa) src
                               && existsb (value_eqb (getattr (snd r) ta)) others)
                              || (mg_symmetrical mg
                                  && value_eqb (getattr (snd r) ta) src
                                  && existsb (value_eqb (getattr (snd r) sa)) others))))
            (db_rows d)) in
  match op, objs with
  | M2MAdd, [] | M2MRemove, [] => None
  | M2MAdd, _ =>
      let missing := missing_targets d th sa ta src objs in
      let d1 := insert_links d th sa ta src missing in
      let d2 := if mg_symmetrical mg
                then insert_links d1 th ta sa src (missing_targets d1 th ta sa src objs)
                else d1 in
      Some (d2, missing)
  | M2MRemove, _ => Some (unlink (dedup_values objs), dedup_values objs)
  | M2MClear, _ => Some (unlink (m2m_targets d th sa ta src), [])
  end.

(** The database and the history store ([LogEntry] table). *)
Record system : Type := mkSystem { sys_db : db; sys_log : list log_entry }.

Definition about (m : model) (pk : value) (e : log_entry) : bool :=
  model_beq (le_model e) m && value_eqb (le_pk e) pk.

(** [instance.history]: the records of one object. *)
Definition history (s : system) (m : model) (pk : value) : list log_entry :=
  filter (about m pk) (sys_log s).

(** Whether deleting an object deletes its history ([delete_related]). *)
Definition cascades (m : model) : bool :=
  match history_of_model m with
  | Some hf => hf_delete_related hf
  | None => false
  end.

Section System.

Variable redact : value -> value.

(** The registries whose signal handlers are connected. *)
Variable handlers : list registry.

(** [post_save]: the handlers run after the row is written, outside its
    transaction; none run for an auto-created model. *)
Definition post_save (s : system) (d : db) (m : model) (ev : event)
  : system * option string :=
  if auto_created m then (mkSystem d (sys_log s), None)
  else let (es, x) := log_all redact handlers d ev in (mkSystem d (sys_log s ++ es), x).

(** [Collector.delete] on the collected rows, in order: each row is removed
    and the [post_delete] handlers then run for it, except for an
    auto-created model; an exception stops it.  (Django deletes a model's
    rows in one batch before their signals; no hook of the fixtures reads
    the rows of its own model, so this order logs the same.) *)
Fixpoint delete_rows (d : db) (objs : list (model * instance))
  : db * list log_entry * option string :=
  match objs with
  | [] => (d, [], None)
  | o :: r =>
      let d := db_delete d (fst o) (snd o) in
      if auto_created (fst o) then delete_rows d r
      else
        match log_all redact handlers d (EvDelete (fst o) (snd o)) with
        | (es, Some x) => (d, es, Some x)
        | (es, None) =>
            match delete_rows d r with
            | (d', es', x) => (d', (es ++ es')%list, x)
            end
        end
  end.

(** Modelled from the spec and from Django's signals: one operation.
    - A creation or an update writes the row and then runs the [post_save]
      handlers; a handler that raises leaves the row and the records the
      earlier handlers wrote.
    - A deletion (one transaction) removes the collected rows, with the
      history of each whose history field has [delete_related=True], and
      runs their [post_delete] handlers; an exception rolls all of it back.
    - A many-to-many change (one transaction) changes the through rows and
      runs the [m2m_changed] handlers with the signal's [pk_set]; a handler
      exception, or a foreign key without its row when the transaction
      commits, rolls it back.
    An object whose key is [None] (unsaved) can neither be deleted nor use a
    many-to-many manager: [ValueError]. *)
Definition step (s : system) (ev : event) : system * option string :=
  match ev with
  | EvCreate m i =>
      match db_insert (sys_db s) m i with
      | Ok d => post_save s d m ev
      | Raise x => (s, Some x)
      end
  | EvUpdate m _ i =>
      match db_save (sys_db s) m i with
      | Ok d => post_save s d m ev
      | Raise x => (s, Some x)
      end
  | EvDelete m i =>
      if value_eqb (pk_value m i) VNone then (s, Some "ValueError") else
      let objs := collect (sys_db s) m i in
      let kept :=
        filter (fun e => negb (existsb (fun o => cascades (fst o)
                                                 && about (fst o) (pk_value (fst o) (snd o)) e)
                                 objs))
          (sys_log s) in
      match delete_rows (sys_db s) objs with
      | (d, es, None) => (mkSystem d (kept ++ es), None)
      | (_, _, Some x) => (s, Some x)
      end
  | EvM2M owner f rev i op objs =>
      match m2m_manager_of owner f rev with
      | None => (s, Some "AttributeError")
      | Some mg =>
          let src := pk_value (event_model ev) i in
          if value_eqb src VNone then (s, Some "ValueError") else
          match db_m2m_change (sys_db s) mg src op objs with
          | None => (s, None)
          | Some (d, pk_set) =>
              match log_all redact handlers d (EvM2M owner f rev i op pk_set) with
              | (es, None) =>
                  if table_ok d (mg_through mg) then (mkSystem d (sys_log s ++ es), None)
                  else (s, Some "IntegrityError")
              | (_, Some x) => (s, Some x)
              end
          end
      end
  end.

(** A sequence of operations; an exception ends it. *)
Fixpoint run (s : system) (evs : list event) : system * option string :=
  match evs with
  | [] => (s, None)
  | ev :: r =>
      match step s ev with
      | (s', Some x) => (s', Some x)
      | (s', None) => run s' r
      end
  end.

End System.

(** The two registries of models.py, both connected. *)
Definition module_handlers : list registry := [auditlog; m2m_only_auditlog].

(** The action a record of an operation carries. *)
Definition event_action (ev : event) : action :=
  match ev with
  | EvCreate _ _ => ACreate
  | EvUpdate _ _ _ => AUpdate
  | EvDelete _ _ => ADelete
  | EvM2M _ f _ _ op objs => AM2M f op objs
  end.

(** The replacement of [sku]'s label by ["Product No."]. *)
Definition relabel_sku (c : change) : change :=
  if String.eqb (c_field c) "sku"
  then mkChange (c_field c) "Product No." (c_old c) (c_new c)
  else c.

(** Whether an operation is a change of [ManyRelatedModel.related]. *)
Definition related_m2m_change (ev : event) : bool :=
  match ev with
  | EvM2M ManyRelatedModel f _ _ _ _ => String.eqb f "related"
  | _ => false
  end.

(** Whether every field a registration names is declared on its model:
    the field lists name concrete fields, [m2m_fields] names
    many-to-many fields. *)
Definition config_fields_declared (m : model) (cfg : config) : bool :=
  forallb (fun n => mem n (map f_name (concrete_fields m)))
    (include_fields cfg ++ exclude_fields cfg ++ map fst (mapping_fields cfg)
       ++ mask_fields cfg)
  && forallb (fun n => mem n (m2m_field_names m)) (m2m_fields cfg).


(** Rows of a database in which the [ManyRelatedModel] with key [1] is
    linked through [related] to the [ManyRelatedOtherModel] objects [5] and
    [3]. *)
Definition ManyRelatedModel_two_links : list (model * instance) :=
  [(ManyRelatedOtherModel, [("id", VInt 5)]);
   (ManyRelatedOtherModel, [("id", VInt 3)]);
   (ManyRelatedModel_related_through,
    [("id", VInt 1); ("manyrelatedmodel", VInt 1); ("manyrelatedothermodel", VInt 5)]);
   (ManyRelatedModel_related_through,
    [("id", VInt 2); ("manyrelatedmodel", VInt 1); ("manyrelatedothermodel", VInt 3)])].
(** ** General lemmas *)

Lemma bind_ok_some {A} (c : result A) (a : A) :
  bind c (fun x => Ok (Some x)) = Ok (Some a) -> c = Ok a.
Proof. destruct c; simpl; congruence. Qed.

Lemma filter_nil_iff {A} (p : A -> bool) (l : list A) :
  filter p l = [] <-> (forall x, In x l -> p x = false).
Proof.
  induction l as [|y l IH]; simpl.
  - split; [intros _ x []|reflexivity].
  - destruct (p y) eqn:Hy; split.
    + discriminate.
    + intros H. specialize (H y (or_introl eq_refl)). congruence.
    + intros H x [<-|Hx]; [assumption|]. apply IH; assumption.
    + intros H. apply IH. intros x Hx. apply H. right. assumption.
Qed.

Lemma filter_all_true {A} (p : A -> bool) (l : list A) :
  (forall x, p x = true) -> filter p l = l.
Proof.
  intros Hp. induction l as [|y l IH]; simpl; [reflexivity|].
  rewrite Hp, IH. reflexivity.
Qed.

Lemma value_eqb_true v w : value_eqb v w = true -> v = w.
Proof.
  destruct v, w; simpl; try discriminate; intros H.
  - reflexivity.
  - apply Z.eqb_eq in H. congruence.
  - apply String.eqb_eq in H. congruence.
  - apply Bool.eqb_prop in H. congruence.
  - apply String.eqb_eq in H. congruence.
Qed.

Lemma value_eqb_refl v : value_eqb v v = true.
Proof.
  destruct v; simpl.
  - reflexivity.
  - apply Z.eqb_refl.
  - apply String.eqb_refl.
  - apply Bool.eqb_reflx.
  - apply String.eqb_refl.
Qed.

Lemma value_eqb_false v w : v <> w -> value_eqb v w = false.
Proof.
  intros Hne. destruct (value_eqb v w) eqn:E; [|reflexivity].
  apply value_eqb_true in E. contradiction.
Qed.

Lemma in_field_change redact cfg o n f c :
  In c (field_change redact cfg o n f) ->
  c_field c = f_name f
  /\ value_eqb (field_value o (f_name f)) (field_value n (f_name f)) = false.
Proof.
  unfold field_change.
  destruct (value_eqb _ _) eqn:E; [intros []|].
  destruct (mem _ _); intros [<-|[]]; auto.
Qed.

(** Every captured change is of a tracked field whose value changed. *)
Lemma diff_sound redact cfg m o n c :
  In c (model_instance_diff redact cfg m o n) ->
  exists f, In f (tracked_fields cfg m) /\ c_field c = f_name f
            /\ value_eqb (field_value o (f_name f)) (field_value n (f_name f)) = false.
Proof.
  unfold model_instance_diff. rewrite in_flat_map.
  intros [f [Hf Hc]]. apply in_field_change in Hc. exists f. tauto.
Qed.

(** Every tracked field whose value changed is captured. *)
Lemma diff_complete redact cfg m o n f :
  In f (tracked_fields cfg m) ->
  value_eqb (field_value o (f_name f)) (field_value n (f_name f)) = false ->
  exists c, In c (model_instance_diff redact cfg m o n) /\ c_field c = f_name f.
Proof.
  intros Hf Hne. unfold model_instance_diff.
  destruct (mem (f_name f) (mask_fields cfg)) eqn:Hm.
  - exists (mkChange (f_name f) (field_label cfg f)
              (redact (field_value o (f_name f))) (redact (field_value n (f_name f)))).
    split; [|reflexivity]. apply in_flat_map. exists f. split; [assumption|].
    unfold field_change. rewrite Hne, Hm. left. reflexivity.
  - exists (mkChange (f_name f) (field_label cfg f)
              (field_value o (f_name f)) (field_value n (f_name f))).
    split; [|reflexivity]. apply in_flat_map. exists f. split; [assumption|].
    unfold field_change. rewrite Hne, Hm. left. reflexivity.
Qed.

Lemma log_create_spec d m i act ch e :
  log_create d m i act ch = Ok e ->
  le_model e = m /\ le_pk e = pk_value m i /\ le_action e = act /\ le_changes e = ch
  /\ (forall hook, get_additional_data m = Some hook ->
        exists extra, hook d i = Ok extra /\ le_additional_data e = Some extra).
Proof.
  unfold log_create. destruct (get_additional_data m) as [h|] eqn:Hh.
  - destruct (h d i) as [extra|x] eqn:Hx; simpl; intros He; inversion He; subst.
    repeat split; try reflexivity.
    intros hook Hk. inversion Hk; subst. exists extra. auto.
  - intros He. inversion He; subst. repeat split; try reflexivity.
    intros hook Hk. discriminate.
Qed.

(** A record logged by a registry comes from a registration of the model
    deciding the logging, and is created from the operation's model,
    instance and action. *)
Lemma log_event_spec redact r d ev e :
  log_event redact r d ev = Ok (Some e) ->
  get_config r (event_registered_model ev) <> None
  /\ exists ch, log_create d (event_model ev) (event_instance ev) (event_action ev) ch = Ok e.
Proof.
  unfold log_event. destruct (get_config r (event_registered_model ev)) as [cfg|] eqn:Hc;
    [|discriminate].
  intros H. split; [discriminate|].
  destruct ev as [m i|m o n|m i|ow f rev i op objs]; simpl in *.
  - destruct (r_create r); [|discriminate]. eexists. apply bind_ok_some. exact H.
  - destruct (r_update r); [|discriminate].
    destruct (model_instance_diff redact cfg m (Some o) (Some n)) as [|c l];
      [discriminate|].
    eexists. apply bind_ok_some. exact H.
  - destruct (r_delete r); [|discriminate]. eexists. apply bind_ok_some. exact H.
  - destruct (mem f (m2m_fields cfg)); [|discriminate].
    eexists. apply bind_ok_some. exact H.
Qed.

(** A many-to-many record needs the field in [m2m_fields] of the model
    declaring it. *)
Lemma log_event_m2m_field redact r d ow f rev i op objs e :
  log_event redact r d (EvM2M ow f rev i op objs) = Ok (Some e) ->
  exists cfg, get_config r ow = Some cfg /\ mem f (m2m_fields cfg) = true.
Proof.
  unfold log_event. simpl. destruct (get_config r ow) as [cfg|]; [|discriminate].
  destruct (mem f (m2m_fields cfg)) eqn:Hm; [|discriminate]. intros _. exists cfg. auto.
Qed.

Lemma log_all_spec redact rs d ev e :
  In e (fst (log_all redact rs d ev)) ->
  exists r, In r rs /\ log_event redact r d ev = Ok (Some e).
Proof.
  induction rs as [|r rs IH]; simpl; [intros []|].
  destruct (log_event redact r d ev) as [o|x] eqn:Hr; [|intros []].
  destruct (log_all redact rs d ev) as [es x] eqn:Hes. simpl in *.
  destruct o as [e'|].
  - intros [<-|He]; [exists r; auto|].
    destruct (IH He) as [r' [Hin Hr']]. exists r'. auto.
  - intros He. destruct (IH He) as [r' [Hin Hr']]. exists r'. auto.
Qed.

(** In the registries of models.py only [ManyRelatedModel.related] is listed
    in [m2m_fields]. *)
Lemma module_m2m_fields r ow cfg f :
  In r module_handlers -> get_config r ow = Some cfg -> mem f (m2m_fields cfg) = true ->
  ow = ManyRelatedModel /\ f = "related".
Proof.
  intros Hr Hc Hm. destruct Hr as [<-|[<-|[]]]; destruct ow; vm_compute in Hc;
    try discriminate Hc; inversion Hc; subst; unfold mem in Hm; simpl in Hm;
    try discriminate Hm.
  split; [reflexivity|]. rewrite Bool.orb_false_r in Hm. apply String.eqb_eq. exact Hm.
Qed.

(** A record the handlers of models.py log is about the operation's model,
    registered in one of them, or is a record of a change of
    [ManyRelatedModel.related] about one of its two sides. *)
Lemma module_record_origin redact d ev e :
  In e (fst (log_all redact module_handlers d ev)) ->
  (exists r, In r module_handlers /\ get_config r (event_model ev) <> None
             /\ le_model e = event_model ev)
  \/ (exists (rev : bool) op objs,
        le_model e = (if rev then ManyRelatedOtherModel else ManyRelatedModel)
        /\ le_action e = AM2M "related" op objs).
Proof.
  intros He. apply log_all_spec in He as [r [Hr He]].
  pose proof He as He'.
  apply log_event_spec in He as [Hc [ch Hch]].
  apply log_create_spec in Hch as [Hm [_ [Ha _]]].
  destruct ev as [m i|m o n|m i|ow f rev i op objs].
  - left. exists r. auto.
  - left. exists r. auto.
  - left. exists r. auto.
  - right. apply log_event_m2m_field in He' as [cfg [Hcfg Hmem]].
    destruct (module_m2m_fields r ow cfg f Hr Hcfg Hmem) as [-> ->].
    exists rev, op, objs. split; [|exact Ha].
    rewrite Hm. destruct rev; reflexivity.
Qed.

(** The hook of [ManyRelatedModel], case by case. *)
Lemma ManyRelatedModel_hook_eq d self :
  ManyRelatedModel_get_additional_data d self
  = match pk_value ManyRelatedModel self with
    | VNone => Raise "ValueError"
    | _ => Ok [("related_model_id",
                match qs_first ManyRelatedOtherModel (ManyRelatedModel_related d self) with
                | Some r => getattr r "id"
                | None => VNone
                end)]
    end.
Proof.
  unfold ManyRelatedModel_get_additional_data, ManyRelatedModel_related_manager.
  destruct (pk_value ManyRelatedModel self); [reflexivity| | | |]; simpl;
    destruct (qs_first ManyRelatedOtherModel (ManyRelatedModel_related d self)); reflexivity.
Qed.

(** Where the records of a step come from: the store before it, or the
    handlers of some signal. *)
Lemma delete_rows_origin redact rs objs : forall d e,
  In e (snd (fst (delete_rows redact rs d objs))) ->
  exists d' ev', In e (fst (log_all redact rs d' ev')).
Proof.
  induction objs as [|o r IH]; intros d e H; simpl in H; [contradiction|].
  destruct (auto_created (fst o)); [exact (IH _ _ H)|].
  destruct (log_all redact rs (db_delete d (fst o) (snd o)) (EvDelete (fst o) (snd o)))
    as [es [x|]] eqn:Hl.
  - simpl in H. exists (db_delete d (fst o) (snd o)), (EvDelete (fst o) (snd o)).
    rewrite Hl. exact H.
  - destruct (delete_rows redact rs (db_delete d (fst o) (snd o)) r) as [[d' es'] x'] eqn:Hd.
    simpl in H. apply in_app_or in H as [H|H].
    + exists (db_delete d (fst o) (snd o)), (EvDelete (fst o) (snd o)). rewrite Hl. exact H.
    + apply (IH (db_delete d (fst o) (snd o))). rewrite Hd. exact H.
Qed.

Lemma post_save_origin redact rs s d m ev e :
  In e (sys_log (fst (post_save redact rs s d m ev))) ->
  In e (sys_log s) \/ exists d' ev', In e (fst (log_all redact rs d' ev')).
Proof.
  unfold post_save. destruct (auto_created m); simpl; [intros H; left; exact H|].
  destruct (log_all redact rs d ev) as [es x] eqn:Hl. simpl. intros H.
  apply in_app_or in H as [H|H]; [left; exact H|].
  right. exists d, ev. rewrite Hl. exact H.
Qed.

Lemma step_log_origin redact rs s ev e :
  In e (sys_log (fst (step redact rs s ev))) ->
  In e (sys_log s) \/ exists d ev', In e (fst (log_all redact rs d ev')).
Proof.
  intros H. destruct ev as [m i|m o i|m i|ow f rev i op objs]; unfold step in H; cbv zeta in H.
  - destruct (db_insert (sys_db s) m i) as [d|x];
      [exact (post_save_origin _ _ _ _ _ _ _ H)|left; exact H].
  - destruct (db_save (sys_db s) m i) as [d|x];
      [exact (post_save_origin _ _ _ _ _ _ _ H)|left; exact H].
  - destruct (value_eqb (pk_value m i) VNone); [left; exact H|].
    destruct (delete_rows redact rs (sys_db s) (collect (sys_db s) m i))
      as [[d es] [x|]] eqn:Hd; simpl in H; [left; exact H|].
    apply in_app_or in H as [H|H].
    + left. apply filter_In in H as [H _]. exact H.
    + right. apply (delete_rows_origin redact rs (collect (sys_db s) m i) (sys_db s)).
      rewrite Hd. exact H.
  - destruct (m2m_manager_of ow f rev) as [mg|]; [|left; exact H].
    destruct (value_eqb _ VNone); [left; exact H|].
    destruct (db_m2m_change _ _ _ _ _) as [[d pk_set]|]; [|left; exact H].
    destruct (log_all redact rs d (EvM2M ow f rev i op pk_set)) as [es [x|]] eqn:Hl;
      [left; exact H|].
    destruct (table_ok d (mg_through mg)); [|left; exact H].
    simpl in H. apply in_app_or in H as [H|H]; [left; exact H|].
    right. exists d, (EvM2M ow f rev i op pk_set). rewrite Hl. exact H.
Qed.

Lemma run_log_origin redact rs evs : forall s e,
  In e (sys_log (fst (run redact rs s evs))) ->
  In e (sys_log s) \/ exists d ev', In e (fst (log_all redact rs d ev')).
Proof.
  induction evs as [|ev evs IH]; intros s e H; simpl in H; [left; exact H|].
  pose proof (step_log_origin redact rs s ev e) as Ho.
  destruct (step redact rs s ev) as [s' [x|]]; simpl in H, Ho.
  - exact (Ho H).
  - destruct (IH s' e H) as [H'|H']; [exact (Ho H')|right; exact H'].
Qed.

(** Deleting an object with no dependent row, no parent row and no history
    cascade keeps the store and appends the deletion records of the object. *)
Lemma delete_leaf_without_cascade redact rs s m i :
  cascades m = false -> auto_created m = false -> (forall d, collect d m i = [(m, i)]) ->
  exists es,
    sys_log (fst (step redact rs s (EvDelete m i))) = (sys_log s ++ es)%list
    /\ Forall (fun e => le_model e = m /\ le_pk e = pk_value m i /\ le_action e = ADelete) es.
Proof.
  intros Hc Ha Hcol. unfold step. cbv zeta.
  destruct (value_eqb (pk_value m i) VNone).
  { exists []. rewrite app_nil_r. split; [reflexivity|constructor]. }
  rewrite Hcol. simpl. rewrite Ha.
  rewrite filter_all_true by (intros e; rewrite Hc; reflexivity).
  destruct (log_all redact rs (db_delete (sys_db s) m i) (EvDelete m i)) as [es [x|]] eqn:Hl.
  - exists []. rewrite app_nil_r. split; [reflexivity|constructor].
  - exists es. simpl. rewrite app_nil_r. split; [reflexivity|].
    apply Forall_forall. intros e He.
    assert (He' : In e (fst (log_all redact rs (db_delete (sys_db s) m i) (EvDelete m i))))
      by (rewrite Hl; exact He).
    apply log_all_spec in He' as [r [_ Hr]].
    apply log_event_spec in Hr as [_ [ch Hch]].
    apply log_create_spec in Hch. simpl in Hch. tauto.
Qed.




(** The hook of a saved [ManyRelatedModel]. *)
Lemma ManyRelatedModel_hook_saved d self :
  pk_value ManyRelatedModel self <> VNone ->
  ManyRelatedModel_get_additional_data d self
  = Ok [("related_model_id",
         match qs_first ManyRelatedOtherModel (ManyRelatedModel_related d self) with
         | Some r => getattr r "id"
         | None => VNone
         end)].
Proof.
  intros Hp. rewrite ManyRelatedModel_hook_eq.
  destruct (pk_value ManyRelatedModel self); [contradiction|reflexivity..].
Qed.

(** What [m2m_only_auditlog] logs for one signal. *)
Lemma m2m_only_log_event redact d ev :
  match log_event redact m2m_only_auditlog d ev with
  | Ok (Some e) => related_m2m_change ev = true /\ le_action e = event_action ev
  | Ok None => related_m2m_change ev = false
  | Raise x => x = "ValueError" /\ related_m2m_change ev = true
               /\ event_model ev = ManyRelatedModel
               /\ pk_value ManyRelatedModel (event_instance ev) = VNone
  end.
Proof.
  destruct ev as [m i|m o n|m i|ow f rev i op objs]; destruct m || destruct ow;
    try reflexivity.
  unfold log_event. simpl.
  destruct (String.eqb f "related") eqn:Hf; simpl; [|reflexivity].
  destruct rev.
  - unfold m2m_related_model. simpl. rewrite Hf. simpl. split; reflexivity.
  - unfold log_create. simpl. rewrite ManyRelatedModel_hook_eq.
    destruct (pk_value ManyRelatedModel i) eqn:Hp; simpl; auto.
Qed.

(** After [clear()], a manager yields nothing. *)
Lemma m2m_links_after_clear d mg src d' ps :
  db_m2m_change d mg src M2MClear [] = Some (d', ps) -> m2m_links d' mg src = [].
Proof.
  unfold db_m2m_change. cbv zeta. simpl. intros H. inversion H; subst; clear H.
  unfold m2m_links, m2m_targets.
  assert (Hf : forall x, In x (objects
      (mkDb (filter (fun r =>
                negb (same_table (fst r) (mg_through mg)
                      && ((value_eqb (getattr (snd r) (mg_source mg)) src
                           && existsb (value_eqb (getattr (snd r) (mg_target mg)))
                                (m2m_targets d (mg_through mg) (mg_source mg) (mg_target mg) src))
                          || (mg_symmetrical mg
                              && value_eqb (getattr (snd r) (mg_target mg)) src
                              && existsb (value_eqb (getattr (snd r) (mg_source mg)))
                                   (m2m_targets d (mg_through mg) (mg_source mg)
                                      (mg_target mg) src)))))
              (db_rows d))) (mg_through mg)) ->
      value_eqb (getattr x (mg_source mg)) src = false).
  { intros x Hx. unfold objects in Hx. simpl in Hx.
    apply in_map_iff in Hx as [r [Hrx Hr]]. apply filter_In in Hr as [Hr Hst].
    apply filter_In in Hr as [Hr Hkeep].
    destruct (value_eqb (getattr x (mg_source mg)) src) eqn:Es; [|reflexivity].
    exfalso. subst x.
    assert (Hl : existsb (value_eqb (getattr (snd r) (mg_target mg)))
                   (m2m_targets d (mg_through mg) (mg_source mg) (mg_target mg) src) = true).
    { apply existsb_exists. exists (getattr (snd r) (mg_target mg)).
      split; [|apply value_eqb_refl].
      unfold m2m_targets. apply (in_map (fun o => getattr o (mg_target mg))). apply filter_In. split; [|exact Es].
      unfold objects. apply (in_map snd). apply filter_In. split; assumption. }
    rewrite Hst, Es, Hl in Hkeep. simpl in Hkeep. discriminate. }
  match goal with |- map _ ?l = [] => assert (Hnil : l = []) end.
  { apply filter_nil_iff. intros x Hx. apply Hf. exact Hx. }
  rewrite Hnil. reflexivity.
Qed.
(** ** Claims *)

(** C1: [SimpleIncludeModel] is registered with the inclusion list
    [["label"]] and exactly [label] is tracked; [SimpleExcludeModel] is
    registered with the exclusion list [["text"]] and every field but [text]
    is tracked.  The captured changes follow the tracked fields. *)
Theorem include_exclude_tracking :
  get_config auditlog SimpleIncludeModel = Some (mkConfig ["label"] [] [] [] [])
  /\ get_config auditlog SimpleExcludeModel = Some (mkConfig [] ["text"] [] [] [])
  /\ (forall f, In f (map f_name (tracked_fields (mkConfig ["label"] [] [] [] [])
                                   SimpleIncludeModel))
                <-> f = "label")
  /\ (forall f, In f (map f_name (tracked_fields (mkConfig [] ["text"] [] [] [])
                                   SimpleExcludeModel))
                <-> In f (map f_name (concrete_fields SimpleExcludeModel)) /\ f <> "text")
  /\ (forall redact o n c,
        In c (model_instance_diff redact (mkConfig ["label"] [] [] [] [])
                SimpleIncludeModel o n) -> c_field c = "label")
  /\ (forall redact o n c,
        In c (model_instance_diff redact (mkConfig [] ["text"] [] [] [])
                SimpleExcludeModel o n) -> c_field c <> "text")
  /\ (forall redact o n,
        value_eqb (field_value o "label") (field_value n "label") = false ->
        (exists c, In c (model_instance_diff redact (mkConfig ["label"] [] [] [] [])
                           SimpleIncludeModel o n) /\ c_field c = "label")
        /\ (exists c, In c (model_instance_diff redact (mkConfig [] ["text"] [] [] [])
                              SimpleExcludeModel o n) /\ c_field c = "label")).
Proof.
  split; [reflexivity|]. split; [reflexivity|].
  split.
  { intros f; simpl. split; [intros [<-|[]]; reflexivity|intros ->; left; reflexivity]. }
  split.
  { intros f; simpl. split.
    - intros [<-|[<-|[]]]; (split; [tauto|discriminate]).
    - intros [[<-|[<-|[<-|[]]]] Hne]; [tauto|tauto|congruence]. }
  split.
  { intros redact o n c Hc. apply diff_sound in Hc as [f [Hf [-> _]]].
    simpl in Hf. destruct Hf as [<-|[]]. reflexivity. }
  split.
  { intros redact o n c Hc. apply diff_sound in Hc as [f [Hf [-> _]]].
    simpl in Hf. destruct Hf as [<-|[<-|[]]]; discriminate. }
  intros redact o n Hne. split.
  - apply (diff_complete redact _ _ o n (fld "label")); [simpl; tauto|exact Hne].
  - apply (diff_complete redact _ _ o n (fld "label")); [simpl; tauto|exact Hne].
Qed.

(** C1, at a concrete pair of states. *)
Lemma include_exclude_tracking_witness :
  value_eqb (field_value (Some [("label", VStr "a")]) "label")
            (field_value (Some [("label", VStr "b")]) "label") = false
  /\ exists c, In c (model_instance_diff (fun _ => VStr "***")
                       (mkConfig ["label"] [] [] [] []) SimpleIncludeModel
                       (Some [("label", VStr "a")]) (Some [("label", VStr "b")]))
               /\ c_field c = "label".
Proof.
  split; [reflexivity|].
  destruct include_exclude_tracking as [_ [_ [_ [_ [_ [_ H]]]]]].
  apply (H (fun _ => VStr "***") (Some [("label", VStr "a")]) (Some [("label", VStr "b")])).
  reflexivity.
Defined.

(** C2, as stated, fails: an update of [SimpleMaskedModel] that changes
    only [text] is recorded without the masked field [address]. *)
Lemma masked_field_omitted_counterexample :
  ~ (forall redact d ev e,
        event_model ev = SimpleMaskedModel ->
        In e (fst (log_all redact module_handlers d ev)) ->
        exists c, In c (le_changes e) /\ c_field c = "address").
Proof.
  intros H.
  set (o := [("id", VInt 1); ("address", VStr "1 Main St"); ("text", VStr "old")]).
  set (n := [("id", VInt 1); ("address", VStr "1 Main St"); ("text", VStr "new")]).
  set (e := mkLogEntry SimpleMaskedModel (VInt 1) AUpdate
              [mkChange "text" "text" (VStr "old") (VStr "new")] None).
  destruct (H (fun _ => VStr "***") (mkDb []) (EvUpdate SimpleMaskedModel o n) e)
    as [c [Hc Hf]].
  - reflexivity.
  - vm_compute. left. reflexivity.
  - simpl in Hc. destruct Hc as [<-|[]]. discriminate.
Qed.

(** C2, amended: [SimpleMaskedModel] is registered with [mask_fields =
    ["address"]]; masking removes no field from the captured changes (the
    same fields as without masking); a captured [address] has both values
    replaced by the marker; and [address] is captured exactly when its value
    changed. *)
Theorem masked_field_redacted :
  get_config auditlog SimpleMaskedModel = Some (mkConfig [] [] [] ["address"] [])
  /\ forall redact o n,
     map c_field (model_instance_diff redact (mkConfig [] [] [] ["address"] [])
                    SimpleMaskedModel o n)
     = map c_field (model_instance_diff redact default_config SimpleMaskedModel o n)
     /\ (forall c, In c (model_instance_diff redact (mkConfig [] [] [] ["address"] [])
                           SimpleMaskedModel o n) ->
           c_field c = "address" ->
           c_old c = redact (field_value o "address")
           /\ c_new c = redact (field_value n "address"))
     /\ ((exists c, In c (model_instance_diff redact (mkConfig [] [] [] ["address"] [])
                            SimpleMaskedModel o n) /\ c_field c = "address")
         <-> value_eqb (field_value o "address") (field_value n "address") = false).
Proof.
  split; [reflexivity|].
  intros redact o n. split; [|split].
  - unfold model_instance_diff, field_change. simpl.
    repeat (destruct (value_eqb _ _); simpl); reflexivity.
  - intros c Hc Hf. unfold model_instance_diff, field_change in Hc. simpl in Hc.
    repeat (destruct (value_eqb _ _); simpl in Hc);
      repeat (destruct Hc as [<-|Hc]; [try discriminate; simpl; auto|]);
      contradiction.
  - split.
    + intros [c [Hc Hf]]. apply diff_sound in Hc as [f [_ [Hcf Hne]]].
      rewrite Hf in Hcf. rewrite <- Hcf in Hne. exact Hne.
    + intros Hne. apply (diff_complete redact _ _ o n (fld "address"));
        [simpl; tauto|exact Hne].
Qed.

(** C2, at a concrete update of the address. *)
Lemma masked_field_redacted_witness :
  exists c, In c (model_instance_diff (fun _ => VStr "***")
                    (mkConfig [] [] [] ["address"] []) SimpleMaskedModel
                    (Some [("address", VStr "a")]) (Some [("address", VStr "b")]))
            /\ c_field c = "address".
Proof.
  destruct masked_field_redacted as [_ H].
  destruct (H (fun _ => VStr "***") (Some [("address", VStr "a")])
              (Some [("address", VStr "b")])) as [_ [_ H3]].
  apply (proj2 H3). reflexivity.
Defined.

(** C4: [SimpleMappingModel] is registered with [mapping_fields =
    {"sku": "Product No."}], and the changes captured under it are those
    captured without the mapping, with only the label of [sku] replaced:
    the values are the same, and the changes of [vtxt] and [not_mapped]
    (label, name and values) are untouched. *)
Theorem mapping_changes_label_only :
  get_config auditlog SimpleMappingModel
    = Some (mkConfig [] [] [("sku", "Product No.")] [] [])
  /\ forall redact o n,
     model_instance_diff redact (mkConfig [] [] [("sku", "Product No.")] [] [])
       SimpleMappingModel o n
     = map relabel_sku (model_instance_diff redact default_config SimpleMappingModel o n).
Proof.
  split; [reflexivity|].
  intros redact o n. unfold model_instance_diff, field_change. simpl.
  repeat (destruct (value_eqb _ _); simpl); reflexivity.
Qed.

(** C5: the three primary-key variants (auto integer, string, UUID) each
    declare a history field and are registered by the module with the
    default configuration; registering any model in any registry records it. *)
Theorem pk_variants_registered :
  pk_of SimpleModel = AutoIntPk /\ pk_of AltPrimaryKeyModel = CharPk
  /\ pk_of UUIDPrimaryKeyModel = UuidPk
  /\ history_of_model SimpleModel <> None /\ history_of_model AltPrimaryKeyModel <> None
  /\ history_of_model UUIDPrimaryKeyModel <> None
  /\ get_config auditlog SimpleModel = Some default_config
  /\ get_config auditlog AltPrimaryKeyModel = Some default_config
  /\ get_config auditlog UUIDPrimaryKeyModel = Some default_config
  /\ (forall r m cfg, get_config (register r m cfg) m = Some cfg).
Proof.
  repeat split; try reflexivity; try discriminate.
  intros r m cfg. unfold get_config, register. simpl.
  rewrite (internal_model_dec_lb m m eq_refl). reflexivity.
Qed.




(** C3: for a model with a [get_additional_data] hook ([ManyRelatedModel],
    [AdditionalDataIncludedModel]), every record any registry creates for an
    operation on it carries the mapping the hook returns for the operation's
    instance at creation time. *)
Theorem additional_data_attached redact r d ev e hook :
  get_additional_data (event_model ev) = Some hook ->
  log_event redact r d ev = Ok (Some e) ->
  exists extra, hook d (event_instance ev) = Ok extra /\ le_additional_data e = Some extra.
Proof.
  intros Hh He. apply log_event_spec in He as [_ [ch Hc]].
  apply log_create_spec in Hc as [_ [_ [_ [_ Hx]]]]. apply Hx. exact Hh.
Qed.

(** C3, at an addition to [ManyRelatedModel.related] and at the creation of
    an [AdditionalDataIncludedModel]. *)
Lemma additional_data_attached_witness :
  (exists extra,
      ManyRelatedModel_get_additional_data
        (mkDb [(ManyRelatedModel_related_through,
                [("id", VInt 1); ("manyrelatedmodel", VInt 1);
                 ("manyrelatedothermodel", VInt 3)]);
               (ManyRelatedOtherModel, [("id", VInt 3)])])
        [("id", VInt 1)] = Ok extra
      /\ Some [("related_model_id", VInt 3)] = Some extra)
  /\ (exists extra,
      AdditionalDataIncludedModel_get_additional_data
        (mkDb [(SimpleModel, [("id", VInt 7); ("text", VStr "t")])])
        [("id", VInt 1); ("related", VInt 7)] = Ok extra
      /\ Some [("related_model_id", VInt 7); ("related_model_text", VStr "t")]
         = Some extra).
Proof.
  split.
  - apply (additional_data_attached (fun _ => VStr "***") m2m_only_auditlog
             (mkDb [(ManyRelatedModel_related_through,
                     [("id", VInt 1); ("manyrelatedmodel", VInt 1);
                      ("manyrelatedothermodel", VInt 3)]);
                    (ManyRelatedOtherModel, [("id", VInt 3)])])
             (EvM2M ManyRelatedModel "related" false [("id", VInt 1)] M2MAdd [VInt 3])
             (mkLogEntry ManyRelatedModel (VInt 1) (AM2M "related" M2MAdd [VInt 3]) []
                (Some [("related_model_id", VInt 3)]))).
    + reflexivity.
    + vm_compute. reflexivity.
  - apply (additional_data_attached (fun _ => VStr "***") auditlog
             (mkDb [(SimpleModel, [("id", VInt 7); ("text", VStr "t")])])
             (EvCreate AdditionalDataIncludedModel [("id", VInt 1); ("related", VInt 7)])
             (mkLogEntry AdditionalDataIncludedModel (VInt 1) ACreate
                [mkChange "id" "ID" VNone (VInt 1); mkChange "related" "related" VNone (VInt 7)]
                (Some [("related_model_id", VInt 7); ("related_model_text", VStr "t")]))).
    + reflexivity.
    + vm_compute. reflexivity.
Defined.

(** C6, as stated, fails: deleting a [NoDeleteHistoryModel] instance keeps
    the existing records but adds the deletion record, so the history store
    changes. *)
Lemma no_delete_history_store_changes :
  ~ (forall redact s i,
        sys_log (fst (step redact module_handlers s (EvDelete NoDeleteHistoryModel i)))
        = sys_log s).
Proof.
  intros H.
  specialize (H (fun _ => VStr "***") (mkSystem (mkDb []) [])
                [("id", VInt 1); ("integer", VInt 4)]).
  vm_compute in H. discriminate.
Qed.

(** C6, amended: deleting an instance of [NoDeleteHistoryModel] or
    [JSONModel] keeps every existing history record, in order; the store
    only gains the deletion records of that instance. *)
Theorem no_delete_history_kept :
  (forall redact s i,
     exists es,
       sys_log (fst (step redact module_handlers s (EvDelete NoDeleteHistoryModel i)))
       = (sys_log s ++ es)%list
       /\ Forall (fun e => le_model e = NoDeleteHistoryModel
                           /\ le_pk e = pk_value NoDeleteHistoryModel i
                           /\ le_action e = ADelete) es)
  /\ (forall redact s i,
     exists es,
       sys_log (fst (step redact module_handlers s (EvDelete JSONModel i)))
       = (sys_log s ++ es)%list
       /\ Forall (fun e => le_model e = JSONModel /\ le_pk e = pk_value JSONModel i
                           /\ le_action e = ADelete) es).
Proof.
  split; intros redact s i; apply delete_leaf_without_cascade;
    [reflexivity|reflexivity|intros d; reflexivity
    |reflexivity|reflexivity|intros d; reflexivity].
Qed.

(** C7: [m2m_only_auditlog] has its create, update and delete switches off;
    for every operation it logs a record exactly when the operation is a
    change of [ManyRelatedModel.related], and that record is a many-to-many
    record of the change; its handler raises only the [ValueError] of
    [self.related] in the hook, on a signal about an unsaved
    [ManyRelatedModel], which no operation sends (the manager raises the
    same error before any signal).  So every record it adds to the history
    store, over any sequence of operations, is a record of a change of
    [related]. *)
Theorem m2m_only_registry_tracks_related :
  r_create m2m_only_auditlog = false /\ r_update m2m_only_auditlog = false
  /\ r_delete m2m_only_auditlog = false
  /\ (forall redact d ev,
      match log_event redact m2m_only_auditlog d ev with
      | Ok (Some e) => related_m2m_change ev = true /\ le_action e = event_action ev
      | Ok None => related_m2m_change ev = false
      | Raise x => x = "ValueError" /\ related_m2m_change ev = true
                   /\ event_model ev = ManyRelatedModel
                   /\ pk_value ManyRelatedModel (event_instance ev) = VNone
      end)
  /\ (forall redact s evs e,
      In e (sys_log (fst (run redact [m2m_only_auditlog] s evs))) ->
      In e (sys_log s) \/ exists op objs, le_action e = AM2M "related" op objs).
Proof.
  split; [reflexivity|]. split; [reflexivity|]. split; [reflexivity|].
  split; [exact m2m_only_log_event|].
  intros redact s evs e He.
  apply run_log_origin in He as [He|[d [ev He]]]; [left; exact He|right].
  apply log_all_spec in He as [r [[<-|[]] Hr]].
  pose proof (m2m_only_log_event redact d ev) as H. rewrite Hr in H.
  destruct H as [Hrel Ha]. rewrite Ha.
  destruct ev as [m i|m o n|m i|ow f rev i op objs]; try discriminate.
  destruct ow; try discriminate. simpl in Hrel. apply String.eqb_eq in Hrel. subst f.
  exists op, objs. reflexivity.
Qed.

(** C10, as stated, fails: [related_name="related"] gives
    [ManyRelatedOtherModel] a reverse manager, and a change made through it
    is logged by [m2m_only_auditlog] against the [ManyRelatedOtherModel]
    object, which thereby gains a history record. *)
Lemma ManyRelatedOtherModel_history_counterexample :
  ~ (forall redact s evs pk,
        history s ManyRelatedOtherModel pk = [] ->
        history (fst (run redact module_handlers s evs)) ManyRelatedOtherModel pk = []).
Proof.
  intros H.
  specialize (H (fun _ => VStr "***") (mkSystem (mkDb []) [])
                [EvCreate ManyRelatedModel [("id", VInt 1)];
                 EvCreate ManyRelatedOtherModel [("id", VInt 5)];
                 EvM2M ManyRelatedModel "related" true [("id", VInt 5)] M2MAdd [VInt 1]]
                (VInt 5) eq_refl).
  vm_compute in H. discriminate.
Qed.

(** C10, amended: [ManyRelatedOtherModel] and [OneToOneFieldModel] are in
    neither registry; no creation, update or deletion of them logs
    anything; the only records their objects ever gain are the
    many-to-many records of [related] a [ManyRelatedOtherModel] object gets
    when the relation is changed through its reverse manager. *)
Theorem unregistered_models_history m :
  m = ManyRelatedOtherModel \/ m = OneToOneFieldModel ->
  get_config auditlog m = None /\ get_config m2m_only_auditlog m = None
  /\ (forall redact d i o n,
        log_all redact module_handlers d (EvCreate m i) = ([], None)
        /\ log_all redact module_handlers d (EvUpdate m o n) = ([], None)
        /\ log_all redact module_handlers d (EvDelete m i) = ([], None))
  /\ (forall redact s evs pk e,
        In e (history (fst (run redact module_handlers s evs)) m pk) ->
        In e (history s m pk)
        \/ (m = ManyRelatedOtherModel /\ exists op objs, le_action e = AM2M "related" op objs)).
Proof.
  intros Hm.
  assert (H1 : get_config auditlog m = None) by (destruct Hm as [-> | ->]; reflexivity).
  assert (H2 : get_config m2m_only_auditlog m = None)
    by (destruct Hm as [-> | ->]; reflexivity).
  split; [exact H1|]. split; [exact H2|]. split.
  - intros redact d i o n. unfold module_handlers, log_all, log_event. simpl.
    rewrite H1, H2. repeat split.
  - intros redact s evs pk e He. unfold history in *.
    apply filter_In in He as [He Hab].
    apply run_log_origin in He as [He|[d [ev He]]].
    + left. apply filter_In. split; assumption.
    + right. unfold about in Hab. apply andb_prop in Hab as [Hme _].
      apply internal_model_dec_bl in Hme.
      apply module_record_origin in He
        as [[r [Hr [Hc Hle]]]|[rev [op [objs [Hle Ha]]]]].
      * exfalso. rewrite Hme in Hle. rewrite <- Hle in Hc.
        destruct Hr as [<-|[<-|[]]]; contradiction.
      * rewrite Hme in Hle. split; [|exists op, objs; exact Ha].
        destruct rev; [exact Hle|]. destruct Hm as [-> | ->]; discriminate.
Qed.

(** C10, at [ManyRelatedOtherModel]. *)
Lemma unregistered_models_history_witness :
  get_config auditlog ManyRelatedOtherModel = None.
Proof.
  apply (unregistered_models_history ManyRelatedOtherModel). left. reflexivity.
Defined.

(** ** Further properties of the fixtures *)





(** [ManyRelatedModel.get_additional_data] reads only the object's own
    [related] links: a row of the [recursive] through table, or a row of
    the [related] through table from another object, leaves its result
    unchanged. *)
Theorem ManyRelatedModel_hook_ignores_other_links d self m o :
  m = ManyRelatedModel_recursive_through
  \/ (m = ManyRelatedModel_related_through
      /\ getattr o "manyrelatedmodel" <> pk_value ManyRelatedModel self) ->
  ManyRelatedModel_get_additional_data (mkDb ((m, o) :: db_rows d)) self
  = ManyRelatedModel_get_additional_data d self.
Proof.
  intros Hrow. rewrite !ManyRelatedModel_hook_eq.
  assert (E : ManyRelatedModel_related (mkDb ((m, o) :: db_rows d)) self
              = ManyRelatedModel_related d self).
  { unfold ManyRelatedModel_related, m2m_links, m2m_targets, objects.
    destruct Hrow as [-> | [-> Hne]]; [reflexivity|].
    simpl. rewrite (value_eqb_false _ _ Hne). reflexivity. }
  rewrite E. reflexivity.
Qed.

(** The same, at a [recursive] link. *)
Lemma ManyRelatedModel_hook_ignores_other_links_witness :
  ManyRelatedModel_get_additional_data
    (mkDb [(ManyRelatedModel_recursive_through,
            [("id", VInt 1); ("from_manyrelatedmodel", VInt 1); ("to_manyrelatedmodel", VInt 2)])])
    [("id", VInt 1)]
  = ManyRelatedModel_get_additional_data (mkDb []) [("id", VInt 1)].
Proof.
  apply (ManyRelatedModel_hook_ignores_other_links (mkDb []) [("id", VInt 1)]
           ManyRelatedModel_recursive_through
           [("id", VInt 1); ("from_manyrelatedmodel", VInt 1); ("to_manyrelatedmodel", VInt 2)]).
  left. reflexivity.
Defined.

(** Every field named by a registration of models.py is declared on its
    model: the include, exclude, mapping and mask lists name concrete
    fields, [m2m_fields] names many-to-many fields. *)
Theorem module_registrations_name_declared_fields r m cfg :
  In r module_handlers -> In (m, cfg) (r_registry r) -> config_fields_declared m cfg = true.
Proof.
  intros [<-|[<-|[]]] H; unfold auditlog, m2m_only_auditlog, module_registries in H;
    simpl in H;
    repeat (destruct H as [H|H]; [inversion H; subst; reflexivity|]); contradiction.
Qed.

(** The same, at the registration of [SimpleMaskedModel]. *)
Lemma module_registrations_name_declared_fields_witness :
  config_fields_declared SimpleMaskedModel (mkConfig [] [] [] ["address"] []) = true.
Proof.
  apply (module_registrations_name_declared_fields auditlog).
  - left. reflexivity.
  - vm_compute. repeat (first [left; reflexivity | right]).
Defined.

(** A history field is declared [pk_indexable=False] exactly on the models
    whose primary key is not an auto-increment integer. *)
Theorem pk_indexable_iff_integer_key m hf :
  history_of_model m = Some hf -> (hf_pk_indexable hf = false <-> pk_of m <> AutoIntPk).
Proof.
  destruct m; simpl; intros H; inversion H; subst; simpl;
    (split; [intros Hx; try discriminate Hx; discriminate
            |intros Hx; try reflexivity; exfalso; apply Hx; reflexivity]).
Qed.

(** The same, at [UUIDPrimaryKeyModel]. *)
Lemma pk_indexable_iff_integer_key_witness :
  hf_pk_indexable (mkHistoryField false true) = false <-> pk_of UUIDPrimaryKeyModel <> AutoIntPk.
Proof.
  apply (pk_indexable_iff_integer_key UUIDPrimaryKeyModel). reflexivity.
Defined.

(** After [related.clear()] on a saved [ManyRelatedModel] (which sends
    [pk_set] [None], written [[]]), its hook records
    [{"related_model_id": None}], whatever the database held before. *)
Theorem ManyRelatedModel_hook_after_clear d self :
  pk_value ManyRelatedModel self <> VNone ->
  exists d',
    db_m2m_change d m2m_related (pk_value ManyRelatedModel self) M2MClear [] = Some (d', [])
    /\ ManyRelatedModel_get_additional_data d' self = Ok [("related_model_id", VNone)].
Proof.
  intros Hp.
  assert (Hc : exists d',
             db_m2m_change d m2m_related (pk_value ManyRelatedModel self) M2MClear []
             = Some (d', [])) by (eexists; reflexivity).
  destruct Hc as [d' Hc]. exists d'. split; [exact Hc|].
  pose proof (m2m_links_after_clear _ _ _ _ _ Hc) as Hl.
  assert (Hr : ManyRelatedModel_related d' self = []).
  { unfold ManyRelatedModel_related. cbv zeta. rewrite Hl.
    apply filter_nil_iff. intros x _. reflexivity. }
  rewrite (ManyRelatedModel_hook_saved d' self Hp), Hr. reflexivity.
Qed.

(** The same, at an object linked to two others. *)
Lemma ManyRelatedModel_hook_after_clear_witness :
  VInt 1 <> VNone
  /\ exists d',
    db_m2m_change (mkDb ManyRelatedModel_two_links) m2m_related (VInt 1) M2MClear []
    = Some (d', [])
    /\ ManyRelatedModel_get_additional_data d' [("id", VInt 1)]
       = Ok [("related_model_id", VNone)].
Proof.
  split; [discriminate|].
  apply (ManyRelatedModel_hook_after_clear (mkDb ManyRelatedModel_two_links) [("id", VInt 1)]).
  discriminate.
Defined.
